(** * The AWS Batch step operator of ZenML

    A shallow embedding of
    [src/zenml/integrations/aws/step_operators/aws_batch_step_operator.py]:
    the environment mapper, the resource mapper, the job name generator, the
    job definition compiler with the pydantic models it instantiates, and the
    submission and polling loop of [launch].

    Conventions.
    - A Python [str] is a [string]; one [ascii] stands for one character.
    - A Python [int] is a [Z].
    - A Python [float] is a [spec_float] (sign, mantissa, exponent, the
      infinities and NaN); a finite float denotes the rational
      [float_to_Q].
    - A Python [Dict[str,str]] is an association list in insertion order
      whose keys are pairwise distinct ([dict_wf]).
    - A raised exception is the [Raise] case of [result]; log records and
      calls to the remote service are collected in a trace ([io]). *)

From Stdlib Require Import ZArith QArith Qround String Ascii List Bool Lia.
From Stdlib Require Import Floats.SpecFloat DecimalString.
From Stdlib Require DecimalPos DecimalZ.
Import ListNotations.

Local Open Scope Z_scope.
Local Open Scope string_scope.

(** ** Python values and effects *)

Module Py.

(** The exceptions this module can meet. [ValidationError] is pydantic's,
    with the model and the field that was refused; [ClientError] is
    botocore's. *)
Inductive exn : Type :=
| ValidationError (model field : string)
| RuntimeError (msg : string)
| ClientError (msg : string)
| OverflowError
| ValueError
| TypeError
| IndexError.

Inductive result (A : Type) : Type :=
| Ok (a : A)
| Raise (e : exn).

Arguments Ok {A} a.
Arguments Raise {A} e.

(** A computation that appends events of type [E] to a trace and then
    returns or raises. *)
Definition io (E A : Type) : Type := (list E * result A)%type.

Definition ret {E A} (a : A) : io E A := ([], Ok a).

Definition raise {E A} (e : exn) : io E A := ([], Raise e).

Definition emit {E} (ev : E) : io E unit := ([ev], Ok tt).

Definition lift {E A} (r : result A) : io E A := ([], r).

Definition bind {E A B} (m : io E A) (k : A -> io E B) : io E B :=
  match m with
  | (t, Ok a) => let (t', r) := k a in ((t ++ t')%list, r)
  | (t, Raise e) => (t, Raise e)
  end.

(** Events of a sub-computation seen as events of the caller. *)
Definition embed {E F A} (f : E -> F) (m : io E A) : io F A :=
  (map f (fst m), snd m).

(** [str(n)] for an [int]. *)
Definition str (n : Z) : string := NilZero.string_of_int (Z.to_int n).

(** [s[:n]] *)
Definition slice_to (n : nat) (s : string) : string := substring 0 n s.

(** [range(n)] *)
Definition range (n : Z) : list Z := map Z.of_nat (seq 0 (Z.to_nat n)).

(** [sep.join(l)] *)
Definition join (sep : string) (l : list string) : string := String.concat sep l.

(** *** Floats *)

(** The rational a finite float denotes; [0] stands in for the values that
    denote none, which the operations below treat apart. *)
Definition float_to_Q (x : spec_float) : Q :=
  match x with
  | S754_finite s m e =>
      let M := if s then Z.neg m else Z.pos m in
      if (0 <=? e)%Z then inject_Z (M * 2 ^ e) else M # (2 ^ Z.to_pos (- e))
  | _ => 0%Q
  end.

Definition is_finite (x : spec_float) : bool :=
  match x with
  | S754_finite _ _ _ | S754_zero _ => true
  | _ => false
  end.

(** [math.ceil(x)]: the least integer not below [x]; the infinities raise
    [OverflowError], NaN raises [ValueError]. *)
Definition math_ceil (x : spec_float) : result Z :=
  match x with
  | S754_infinity _ => Raise OverflowError
  | S754_nan => Raise ValueError
  | _ => Ok (Qceiling (float_to_Q x))
  end.

(** [int(x)]: truncation towards zero. *)
Definition int_of_float (x : spec_float) : result Z :=
  match x with
  | S754_infinity _ => Raise OverflowError
  | S754_nan => Raise ValueError
  | _ => let q := float_to_Q x in Ok (Z.quot (Qnum q) (Z.pos (Qden q)))
  end.

(** [n != x] for an [int] [n] and a float [x]: the comparison is exact. *)
Definition int_ne_float (n : Z) (x : spec_float) : bool :=
  match x with
  | S754_infinity _ | S754_nan => true
  | _ => negb (Qeq_bool (inject_Z n) (float_to_Q x))
  end.

(** *** Dictionaries with string keys and values *)

Definition dict : Type := list (string * string).

Definition keys (d : dict) : list string := map fst d.

Definition dict_wf (d : dict) : Prop := NoDup (keys d).

Fixpoint get (d : dict) (k : string) : option string :=
  match d with
  | [] => None
  | (k', v) :: d' => if String.eqb k k' then Some v else get d' k
  end.

(** [d[k] = v]: a present key keeps its place, a new key goes last. *)
Fixpoint set (d : dict) (k v : string) : dict :=
  match d with
  | [] => [(k, v)]
  | (k', v') :: d' =>
      if String.eqb k k' then (k, v) :: d' else (k', v') :: set d' k v
  end.

(** *** Values decoded from a JSON response *)

#[warnings="-register-all"]
Inductive pyval : Type :=
| PyNone
| PyInt (n : Z)
| PyStr (s : string)
| PyList (l : list pyval).

(** [a == b]: values of different types are never equal. *)
Fixpoint py_eqb (a b : pyval) {struct a} : bool :=
  match a, b with
  | PyNone, PyNone => true
  | PyInt n, PyInt m => Z.eqb n m
  | PyStr s, PyStr t => String.eqb s t
  | PyList l, PyList l' =>
      (fix all2 (l : list pyval) (l' : list pyval) {struct l} : bool :=
         match l, l' with
         | [], [] => true
         | x :: l, y :: l' => py_eqb x y && all2 l l'
         | _, _ => false
         end) l l'
  | _, _ => false
  end.

End Py.

Import Py.

Declare Scope io_scope.
Delimit Scope io_scope with io.
Notation "x <- m ;; k" := (bind m (fun x => k))
  (at level 61, m at next level, right associativity) : io_scope.
Notation "m ;;; k" := (bind m (fun _ => k))
  (at level 61, right associativity) : io_scope.
Local Open Scope io_scope.

(** ** Logging *)

Inductive log_level : Type := INFO | ERROR.

Record log_record : Type := { level : log_level; message : string }.

Definition logger_info {E} (inj : log_record -> E) (msg : string) : io E unit :=
  emit (inj {| level := INFO; message := msg |}).

(** ** Collaborators of the operator *)

(** Modelled from the spec: [ResourceSettings] of [zenml.config] is not part
    of the source at hand.  It carries an optional CPU count (a float), an
    optional GPU count (an integer) and an optional memory amount, kept as
    written (such as 512MiB). *)
Record ResourceSettings : Type := {
  cpu_count : option spec_float;
  gpu_count : option Z;
  memory : option string
}.

(** Modelled from the spec: [ResourceSettings.empty] holds when no resource
    field is set at all. *)
Definition empty (rs : ResourceSettings) : bool :=
  match cpu_count rs, gpu_count rs, memory rs with
  | None, None, None => true
  | _, _, _ => false
  end.

Record AWSBatchStepOperatorConfig : Type := {
  execution_role : string;
  job_role : string;
  job_queue_name : string
}.

Record AWSBatchStepOperatorSettings : Type := {
  instance_type : string;
  node_count : Z;
  timeout_seconds : Z
}.

(** What [launch] reads from its [StepRunInfo]: [info.pipeline.name],
    [info.step_run_id], [info.get_image(key=...)],
    [info.config.resource_settings] and the settings that
    [self.get_settings(info)] resolves. *)
Record StepRunInfo : Type := {
  pipeline_name : string;
  step_run_id : string;
  get_image : string -> string;
  resource_settings : ResourceSettings;
  get_settings : AWSBatchStepOperatorSettings
}.

Definition BATCH_DOCKER_IMAGE_KEY : string := "aws_batch_step_operator".

(** ** The mappers and the name generator *)

Section Mappers.

(** How an f-string renders a float. *)
Variable repr_float : spec_float -> string.

(** The amount a memory setting denotes in a unit ([None] is the default
    unit of [get_memory]). *)
Variable memory_in : option string -> string -> spec_float.

(** The ZenML client: [Client().get_run_step(id).name]. *)
Variable get_run_step_name : string -> string.

(** Modelled from the spec: [ResourceSettings.get_memory(unit)] is the
    memory amount in that unit, [None] when no memory is set. *)
Definition get_memory (rs : ResourceSettings) (unit : option string)
  : option spec_float :=
  match memory rs with
  | Some m => Some (memory_in unit m)
  | None => None
  end.

Definition map_environment (environment : dict) : list dict :=
  map (fun '(k, v) => [("name", k); ("value", v)]) environment.

Definition map_resource_settings (resource_settings : ResourceSettings)
  : io log_record (list dict) :=
  let mapped_resource_settings : list dict := [] in
  if empty resource_settings then ret mapped_resource_settings
  else
    mapped_resource_settings <-
      match cpu_count resource_settings with
      | Some c =>
          cpu_count_int <- lift (math_ceil c) ;;
          (if int_ne_float cpu_count_int c
           then logger_info id
                  ("AWS Batch only accepts int type cpu resource requirements. Converted "
                   ++ repr_float c ++ " to " ++ str cpu_count_int)
           else ret tt) ;;;
          ret (mapped_resource_settings
               ++ [[("value", str cpu_count_int); ("type", "VCPU")]])%list
      | None => ret mapped_resource_settings
      end ;;
    mapped_resource_settings <-
      match gpu_count resource_settings with
      | Some g =>
          ret (mapped_resource_settings
               ++ [[("value", str g); ("type", "GPU")]])%list
      | None => ret mapped_resource_settings
      end ;;
    mapped_resource_settings <-
      match get_memory resource_settings None with
      | Some _ =>
          match get_memory resource_settings (Some "MiB") with
          | Some m =>
              mib <- lift (int_of_float m) ;;
              ret (mapped_resource_settings
                   ++ [[("value", str mib); ("type", "MEMORY")]])%list
          | None => raise TypeError
          end
      | None => ret mapped_resource_settings
      end ;;
    ret mapped_resource_settings.

(** [random_str] is the random string source of this run: [random_str n] is
    what [zenml.utils.string_utils.random_str(n)] returned. *)
Definition generate_unique_batch_job_name
  (random_str : nat -> string) (info : StepRunInfo) : string :=
  let step_name := get_run_step_name (step_run_id info) in
  let job_name := slice_to 55 (pipeline_name info ++ "-" ++ step_name) in
  let suffix := random_str 4%nat in
  job_name ++ "-" ++ suffix.

End Mappers.

(** ** The pydantic models *)

Record AWSBatchJobDefinitionContainerProperties : Type := {
  image : string;
  command : list string;
  jobRoleArn : string;
  executionRoleArn : string;
  environment : list dict;
  instanceType : string;
  resourceRequirements : list dict;
  secrets : list dict
}.

Record AWSBatchJobDefinitionNodePropertiesNodeRangeProperty : Type := {
  targetNodes : string;
  container : AWSBatchJobDefinitionContainerProperties
}.

Record AWSBatchJobDefinitionNodeProperties : Type := {
  numNodes : Z;
  mainNode : Z;
  nodeRangeProperties :
    list AWSBatchJobDefinitionNodePropertiesNodeRangeProperty
}.

Record AWSBatchJobDefinitionRetryStrategy : Type := {
  attempts : Z;
  evaluateOnExit : list dict
}.

Record AWSBatchJobDefinition : Type := {
  jobDefinitionName : string;
  type : string;
  parameters : dict;
  schedulingPriority : Z;
  containerProperties : option AWSBatchJobDefinitionContainerProperties;
  nodeProperties : option AWSBatchJobDefinitionNodeProperties;
  retryStrategy : AWSBatchJobDefinitionRetryStrategy;
  propagateTags : bool;
  timeout : list (string * Z);
  tags : dict;
  platformCapabilities : string
}.

(** What the caller hands over where a field expects an instance of the
    model [A]: the instance itself, or a tuple of instances (the value of
    the expression [e,]). *)
Inductive arg (A : Type) : Type :=
| Obj (a : A)
| Tuple (items : list A).

Arguments Obj {A} a.
Arguments Tuple {A} items.

(** pydantic accepts an instance of the model for a field of model type;
    a tuple is neither an instance nor a mapping and is refused. *)
Definition validate_model {A} (model field : string) (v : arg A) : result A :=
  match v with
  | Obj a => Ok a
  | Tuple _ => Raise (ValidationError model field)
  end.

(** The constructors.  Arguments whose Python type is the field's type pass
    validation unchanged; the checks left are those on [arg] values,
    [PositiveInt] and [Literal].  Fields are checked in declaration order;
    the error names the first field refused. *)

Definition new_ContainerProperties
  (executionRoleArn jobRoleArn image : string) (command : list string)
  (environment : list dict) (instanceType : string)
  (resourceRequirements : list dict)
  : AWSBatchJobDefinitionContainerProperties :=
  {| image := image;
     command := command;
     jobRoleArn := jobRoleArn;
     executionRoleArn := executionRoleArn;
     environment := environment;
     instanceType := instanceType;
     resourceRequirements := resourceRequirements;
     secrets := [] |}.

Definition new_NodeRangeProperty
  (targetNodes : string)
  (container : arg AWSBatchJobDefinitionContainerProperties)
  : result AWSBatchJobDefinitionNodePropertiesNodeRangeProperty :=
  match
    validate_model "AWSBatchJobDefinitionNodePropertiesNodeRangeProperty"
      "container" container
  with
  | Ok c => Ok {| targetNodes := targetNodes; container := c |}
  | Raise e => Raise e
  end.

Definition new_NodeProperties
  (numNodes : Z)
  (nodeRangeProperties :
     list AWSBatchJobDefinitionNodePropertiesNodeRangeProperty)
  : result AWSBatchJobDefinitionNodeProperties :=
  if (0 <? numNodes)%Z
  then Ok {| numNodes := numNodes;
             mainNode := 0;
             nodeRangeProperties := nodeRangeProperties |}
  else Raise (ValidationError "AWSBatchJobDefinitionNodeProperties" "numNodes").

Definition default_RetryStrategy : AWSBatchJobDefinitionRetryStrategy :=
  {| attempts := 2;
     evaluateOnExit :=
       [ [("onExitCode", "137"); ("action", "RETRY")];
         [("onReason", "*Host EC2*"); ("action", "RETRY")];
         [("onExitCode", "*"); ("action", "EXIT")] ] |}.

(** The keyword arguments [generate_job_definition] collects in [kwargs]:
    the key [type], and one of [containerProperties] and
    [nodeProperties]. *)
Record kwargs : Type := {
  kw_type : string;
  kw_containerProperties :
    option (arg AWSBatchJobDefinitionContainerProperties);
  kw_nodeProperties : option AWSBatchJobDefinitionNodeProperties
}.

(** [AWSBatchJobDefinition(jobDefinitionName=..., timeout=..., **kwargs)];
    every field that is not passed takes its default. *)
Definition new_JobDefinition
  (jobDefinitionName : string) (timeout : list (string * Z)) (kw : kwargs)
  : result AWSBatchJobDefinition :=
  if negb (String.eqb (kw_type kw) "container"
           || String.eqb (kw_type kw) "multinode")
  then Raise (ValidationError "AWSBatchJobDefinition" "type")
  else
    match
      match kw_containerProperties kw with
      | None => Ok None
      | Some v =>
          match validate_model "AWSBatchJobDefinition" "containerProperties" v
          with
          | Ok c => Ok (Some c)
          | Raise e => Raise e
          end
      end
    with
    | Raise e => Raise e
    | Ok cp =>
        Ok {| jobDefinitionName := jobDefinitionName;
              type := kw_type kw;
              parameters := [];
              schedulingPriority := 0;
              containerProperties := cp;
              nodeProperties := kw_nodeProperties kw;
              retryStrategy := default_RetryStrategy;
              propagateTags := false;
              timeout := timeout;
              tags := [];
              platformCapabilities := "EC2" |}
    end.

(** ** The job definition compiler *)

Section Compiler.

Variable repr_float : spec_float -> string.
Variable memory_in : option string -> string -> spec_float.
Variable get_run_step_name : string -> string.

Definition generate_job_definition
  (random_str : nat -> string) (config : AWSBatchStepOperatorConfig)
  (info : StepRunInfo) (entrypoint_command : list string)
  (environment : dict) : io log_record AWSBatchJobDefinition :=
  let image_name := get_image info BATCH_DOCKER_IMAGE_KEY in
  let resource_settings := resource_settings info in
  let step_settings := get_settings info in
  let job_name :=
    generate_unique_batch_job_name get_run_step_name random_str info in
  mapped <- map_resource_settings repr_float memory_in resource_settings ;;
  (* line 346 ends in a comma: the name is bound to a 1-tuple *)
  let container_properties :=
    Tuple [ new_ContainerProperties
              (execution_role config) (job_role config) image_name
              entrypoint_command (map_environment environment)
              (instance_type step_settings) mapped ] in
  let node_count := node_count step_settings in
  kw <-
    (if (node_count =? 1)%Z
     then ret {| kw_type := "container";
                 kw_containerProperties := Some container_properties;
                 kw_nodeProperties := None |}
     else
       node_range <-
         lift (new_NodeRangeProperty
                 (join "," (map str (range node_count)))
                 container_properties) ;;
       node_properties <- lift (new_NodeProperties node_count [node_range]) ;;
       ret {| kw_type := "multinode";
              kw_containerProperties := None;
              kw_nodeProperties := Some node_properties |}) ;;
  lift (new_JobDefinition job_name
          [("attemptDurationSeconds", timeout_seconds step_settings)] kw).

End Compiler.

(** ** Submission and polling *)

Record RegisterJobDefinitionResponse : Type := {
  response_jobDefinitionName : string
}.

Record SubmitJobResponse : Type := { response_jobId : string }.

(** One element of [response['jobs']]: [status] is kept as the decoded value,
    [statusReason] may be missing. *)
Record JobDetail : Type := {
  status : pyval;
  statusReason : option string
}.

Record DescribeJobsResponse : Type := { jobs : list JobDetail }.

(** The remote service as [boto3.client('batch')] shows it.  Each call
    answers or raises; the answer of [describe_jobs] may change from one
    query to the next, so it also depends on how many queries came
    before. *)
Record BatchClient : Type := {
  register_job_definition :
    AWSBatchJobDefinition -> result RegisterJobDefinitionResponse;
  submit_job :
    string -> string -> string -> result SubmitJobResponse;
  describe_jobs : nat -> list string -> result DescribeJobsResponse
}.

(** What [launch] does that can be seen from outside. *)
Inductive event : Type :=
| Logged (r : log_record)
| RegisterJobDefinition (d : AWSBatchJobDefinition)
| SubmitJob (jobName jobQueue jobDefinition : string)
| DescribeJobs (jobs : list string)
| Sleep (secs : Z).

Definition is_batch_call (ev : event) : bool :=
  match ev with
  | RegisterJobDefinition _ | SubmitJob _ _ _ | DescribeJobs _ => true
  | _ => false
  end.

(** How far a run has come: it returned or raised, or it is still in the
    loop when the fuel (the number of status queries allowed) is used up. *)
Inductive run (A : Type) : Type :=
| Finished (r : result A)
| Polling.

Arguments Finished {A} r.
Arguments Polling {A}.

(** The [while True] loop of [launch]; [k] counts the queries made so far. *)
Fixpoint poll (batch : BatchClient) (job_id : string) (fuel k : nat)
  : list event * run unit :=
  match fuel with
  | O => ([], Polling)
  | S fuel' =>
      match describe_jobs batch k [job_id] with
      | Raise (ClientError e) =>
          ([DescribeJobs [job_id];
            Logged {| level := ERROR;
                      message := "Failed to describe job " ++ job_id
                                 ++ ": " ++ e |}],
           Finished (Raise (ClientError e)))
      | Raise e => ([DescribeJobs [job_id]], Finished (Raise e))
      | Ok response =>
          match jobs response with
          | [] => ([DescribeJobs [job_id]], Finished (Raise IndexError))
          | job :: _ =>
              let status := status job in
              if py_eqb status (PyList [PyStr "SUCCEEDED"]) then
                ([DescribeJobs [job_id];
                  Logged {| level := INFO;
                            message := "Job completed successfully: "
                                       ++ job_id |}],
                 Finished (Ok tt))
              else if py_eqb status (PyList [PyStr "FAILED"]) then
                let status_reason :=
                  match statusReason job with
                  | Some r => r
                  | None => "Unknown"
                  end in
                ([DescribeJobs [job_id]],
                 Finished (Raise (RuntimeError
                   ("Job " ++ job_id ++ " failed: " ++ status_reason))))
              else
                let (t, r) := poll batch job_id fuel' (S k) in
                (DescribeJobs [job_id] :: Sleep 10 :: t, r)
          end
      end
  end.

Section Launch.

Variable repr_float : spec_float -> string.
Variable memory_in : option string -> string -> spec_float.
Variable get_run_step_name : string -> string.

Definition launch
  (random_str : nat -> string) (batch : BatchClient)
  (config : AWSBatchStepOperatorConfig) (info : StepRunInfo)
  (entrypoint_command : list string) (environment : dict) (fuel : nat)
  : list event * run unit :=
  match
    embed Logged
      (generate_job_definition repr_float memory_in get_run_step_name
         random_str config info entrypoint_command environment)
  with
  | (t, Raise e) => (t, Finished (Raise e))
  | (t, Ok job_definition) =>
      match register_job_definition batch job_definition with
      | Raise e =>
          ((t ++ [RegisterJobDefinition job_definition])%list,
           Finished (Raise e))
      | Ok response =>
          let job_definition_name := response_jobDefinitionName response in
          let submitted :=
            SubmitJob (jobDefinitionName job_definition)
              (job_queue_name config) job_definition_name in
          match
            submit_job batch (jobDefinitionName job_definition)
              (job_queue_name config) job_definition_name
          with
          | Raise e =>
              ((t ++ [RegisterJobDefinition job_definition; submitted])%list,
               Finished (Raise e))
          | Ok response =>
              let job_id := response_jobId response in
              let (t', r) := poll batch job_id fuel 0 in
              ((t ++ RegisterJobDefinition job_definition :: submitted :: t')
                 %list, r)
          end
      end
  end.

End Launch.

(** ** Reading the mapped values back *)

(** The way back from the wire format of the environment, as the
    specification has it: [{e["name"]: e["value"] for e in pairs}].  It is
    undefined when an entry lacks one of the two keys. *)
Definition environment_of_pairs (pairs : list dict) : option dict :=
  fold_left
    (fun acc e =>
       match acc, get e "name", get e "value" with
       | Some d, Some k, Some v => Some (set d k v)
       | _, _, _ => None
       end)
    pairs (Some []).

(** The [type] entries of a resource requirement list, in order. *)
Definition types_of (reqs : list dict) : list (option string) :=
  map (fun d => get d "type") reqs.

(** The one-element list [[x]] when the setting is present. *)
Definition when_set {A} (o : option A) (x : string) : list (option string) :=
  match o with
  | Some _ => [Some x]
  | None => []
  end.

(** ** Views of the inputs and of the compiled definition *)

(** The step run information with another node count in its settings. *)
Definition with_node_count (n : Z) (info : StepRunInfo) : StepRunInfo :=
  {| pipeline_name := pipeline_name info;
     step_run_id := step_run_id info;
     get_image := get_image info;
     resource_settings := resource_settings info;
     get_settings :=
       {| instance_type := instance_type (get_settings info);
          node_count := n;
          timeout_seconds := timeout_seconds (get_settings info) |} |}.



(** ** Sample inputs *)

Module Sample.

(** 2.875 = 23 * 2^-3 *)
Definition cpu_2_875 : spec_float := S754_finite false 23 (-3).

(** 512.5 = 1025 * 2^-1 *)
Definition mib_512_5 : spec_float := S754_finite false 1025 (-1).

Definition repr_float (x : spec_float) : string := "2.875".

Definition memory_in (unit : option string) (m : string) : spec_float :=
  mib_512_5.

Definition get_run_step_name (id : string) : string := "trainer".

Definition random_str (n : nat) : string := "awsb".

Definition resources : ResourceSettings :=
  {| cpu_count := Some cpu_2_875;
     gpu_count := Some 2;
     memory := Some "512MiB" |}.

Definition environment : dict :=
  [("ZENML_DEBUG", "true"); ("AWS_REGION", "eu-west-1")].

Definition config : AWSBatchStepOperatorConfig :=
  {| execution_role := "arn:aws:iam::1:role/exec";
     job_role := "arn:aws:iam::1:role/job";
     job_queue_name := "queue" |}.

Definition info (nodes : Z) : StepRunInfo :=
  {| pipeline_name := "training";
     step_run_id := "4b1f";
     get_image := fun _ => "registry/zenml:training";
     resource_settings := resources;
     get_settings :=
       {| instance_type := "optimal";
          node_count := nodes;
          timeout_seconds := 3600 |} |}.

Definition container : AWSBatchJobDefinitionContainerProperties :=
  new_ContainerProperties "exec" "job" "registry/zenml:training"
    ["python"; "-m"; "zenml.entrypoints.entrypoint"]
    (map_environment environment) "optimal" [].

(** A remote service that accepts the registration and the submission and
    answers every status query with the same job detail. *)
Definition answering (st : pyval) (reason : option string) : BatchClient :=
  {| register_job_definition :=
       fun d =>
         Ok {| response_jobDefinitionName := jobDefinitionName d |};
     submit_job := fun _ _ _ => Ok {| response_jobId := "job-1" |};
     describe_jobs :=
       fun _ _ =>
         Ok {| jobs := [ {| status := st; statusReason := reason |} ] |} |}.

End Sample.

(** ** The stack validator *)

Record ComponentConfig : Type := { is_local : bool }.

(** What the validator reads from a stack component. *)
Record StackComponent : Type := {
  name : string;
  config : ComponentConfig
}.

(** What the validator reads from a stack: the artifact store, and the
    container registry, which a stack may lack. *)
Record Stack : Type := {
  artifact_store : StackComponent;
  container_registry : option StackComponent
}.

(** A function that returns, or stops at an [assert]. *)
Inductive asserted (A : Type) : Type :=
| Returned (a : A)
| AssertionError.

Arguments Returned {A} a.
Arguments AssertionError {A}.

Definition _validate_remote_components (stack : Stack)
  : asserted (bool * string) :=
  if is_local (config (artifact_store stack)) then
    Returned (false,
      "The Batch step operator runs code remotely and "
      ++ "needs to write files into the artifact store, but the "
      ++ "artifact store `" ++ name (artifact_store stack) ++ "` of the "
      ++ "active stack is local. Please ensure that your stack "
      ++ "contains a remote artifact store when using the Batch "
      ++ "step operator.")
  else
    match container_registry stack with
    | None => AssertionError
    | Some container_registry =>
        if is_local (config container_registry) then
          Returned (false,
            "The Batch step operator runs code remotely and "
            ++ "needs to push/pull Docker images, but the "
            ++ "container registry `" ++ name container_registry ++ "` of the "
            ++ "active stack is local. Please ensure that your stack "
            ++ "contains a remote container registry when using the "
            ++ "Batch step operator.")
        else Returned (true, "")
    end.

(** A message that quotes a component name between backticks. *)
Definition quotes (msg component : string) : Prop :=
  exists before after, msg = before ++ "`" ++ component ++ "`" ++ after.

(** ** The Docker builds *)

Definition _ENTRYPOINT_ENV_VARIABLE : string := "__ZENML_ENTRYPOINT".

(** What [get_docker_builds] reads from a step of the deployment:
    [step.config.docker_settings] and [step.config.uses_step_operator].
    [D] is the type of the Docker settings. *)
Record Step (D : Type) : Type := {
  docker_settings : D;
  uses_step_operator : string -> bool
}.

Arguments docker_settings {D} s.
Arguments uses_step_operator {D} s _.

Record BuildConfiguration (D : Type) : Type := {
  key : string;
  settings : D;
  step_name : string;
  entrypoint : string
}.

Arguments key {D} b.
Arguments settings {D} b.
Arguments step_name {D} b.
Arguments entrypoint {D} b.

(** [self_name] is [self.name]; [step_configurations] is the dictionary
    [deployment.step_configurations] in the order of its items. *)
Definition get_docker_builds {D}
  (self_name : string) (step_configurations : list (string * Step D))
  : list (BuildConfiguration D) :=
  fold_left
    (fun builds '(step_name, step) =>
       if uses_step_operator step self_name then
         let build :=
           {| key := BATCH_DOCKER_IMAGE_KEY;
              settings := docker_settings step;
              step_name := step_name;
              entrypoint := "$" ++ _ENTRYPOINT_ENV_VARIABLE |} in
         (builds ++ [build])%list
       else builds)
    step_configurations [].

(** ** Views of the polling loop *)

(** An answer after which the loop sleeps and asks again: it holds a job
    detail whose status equals neither list of the loop. *)
Definition keeps_polling (r : result DescribeJobsResponse) : bool :=
  match r with
  | Ok response =>
      match jobs response with
      | job :: _ =>
          negb (py_eqb (status job) (PyList [PyStr "SUCCEEDED"]))
          && negb (py_eqb (status job) (PyList [PyStr "FAILED"]))
      | [] => false
      end
  | Raise _ => false
  end.

(** A service whose job details carry their status as a string, as the
    batch service does. *)
Definition string_statuses (batch : BatchClient) : Prop :=
  forall k ids response job rest,
    describe_jobs batch k ids = Ok response ->
    jobs response = job :: rest ->
    exists s, status job = PyStr s.

(** One round of the loop that does not end it. *)
Definition round (job_id : string) : list event :=
  [DescribeJobs [job_id]; Sleep 10].

(** Reading a decimal string back into an [int]. *)
Definition int_of_str (s : string) : option Z :=
  option_map Z.of_int (NilZero.int_of_string s).

(** ** More sample inputs *)

Module Scenario.

Definition pending : result DescribeJobsResponse :=
  Ok {| jobs := [ {| status := PyStr "RUNNING"; statusReason := None |} ] |}.

(** A service whose first [n] status queries find the job running and
    whose later queries all answer [last]. *)
Definition running_then (n : nat) (last : result DescribeJobsResponse)
  : BatchClient :=
  {| register_job_definition :=
       fun d => Ok {| response_jobDefinitionName := jobDefinitionName d |};
     submit_job := fun _ _ _ => Ok {| response_jobId := "job-1" |};
     describe_jobs := fun k _ => if (k <? n)%nat then pending else last |}.

Definition remote_store : StackComponent :=
  {| name := "s3-store"; config := {| is_local := false |} |}.

Definition local_store : StackComponent :=
  {| name := "default"; config := {| is_local := true |} |}.

Definition ecr : StackComponent :=
  {| name := "ecr"; config := {| is_local := false |} |}.

Definition local_registry : StackComponent :=
  {| name := "localhost-registry"; config := {| is_local := true |} |}.

(** Three steps, the first and the last of which run on the operator named
    [batch]; the Docker settings are stood for by numbers. *)
Definition steps : list (string * Step nat) :=
  [ ("load", {| docker_settings := 1%nat;
                uses_step_operator := String.eqb "batch" |});
    ("split", {| docker_settings := 2%nat;
                 uses_step_operator := fun _ => false |});
    ("train", {| docker_settings := 3%nat;
                 uses_step_operator := String.eqb "batch" |}) ].

(** A pipeline name of 56 characters. *)
Definition long_pipeline : string :=
  "customer-churn-prediction-nightly-retraining-pipeline-v2".

Definition long_info : StepRunInfo :=
  {| pipeline_name := long_pipeline;
     step_run_id := "4b1f";
     get_image := fun _ => "registry/zenml:churn";
     resource_settings := Sample.resources;
     get_settings :=
       {| instance_type := "optimal";
          node_count := 1;
          timeout_seconds := 3600 |} |}.

End Scenario.

(** ** Properties of the Python primitives *)

Lemma length_append (s t : string) :
  String.length (s ++ t) = (String.length s + String.length t)%nat.
Proof.
  induction s as [|c s IH]; simpl; [reflexivity | now rewrite IH].
Qed.

Lemma slice_to_length (n : nat) (s : string) :
  String.length (slice_to n s) = Nat.min n (String.length s).
Proof.
  unfold slice_to. revert s.
  induction n as [|n IH]; intros [|c s]; simpl; try reflexivity.
  now rewrite IH.
Qed.

Lemma slice_to_prefix (n : nat) (s : string) :
  prefix (slice_to n s) s = true.
Proof.
  unfold slice_to. revert s.
  induction n as [|n IH]; intros [|c s]; simpl; try reflexivity.
  destruct (ascii_dec c c) as [_|ne]; [apply IH | now elim ne].
Qed.

Lemma slice_to_short (n : nat) (s : string) :
  (String.length s <= n)%nat -> slice_to n s = s.
Proof.
  unfold slice_to. revert s.
  induction n as [|n IH]; intros [|c s]; simpl; intros H;
    try reflexivity; try lia.
  f_equal. apply IH. lia.
Qed.

Lemma set_fresh (d : dict) (k v : string) :
  ~ In k (keys d) -> set d k v = (d ++ [(k, v)])%list.
Proof.
  induction d as [|[k' v'] d IH]; simpl; intros H; [reflexivity|].
  destruct (String.eqb_spec k k') as [->|ne].
  - exfalso. apply H. now left.
  - f_equal. apply IH. intros Hin. apply H. now right.
Qed.

Lemma environment_of_pairs_from (env acc : dict) :
  NoDup (keys acc ++ keys env) ->
  fold_left
    (fun acc e =>
       match acc, get e "name", get e "value" with
       | Some d, Some k, Some v => Some (set d k v)
       | _, _, _ => None
       end)
    (map_environment env) (Some acc)
  = Some (acc ++ env)%list.
Proof.
  revert acc.
  induction env as [|[k v] env IH]; intros acc H; simpl.
  - now rewrite app_nil_r.
  - rewrite set_fresh.
    + rewrite IH.
      * now rewrite <- app_assoc.
      * unfold keys in *. rewrite map_app, <- app_assoc. exact H.
    + simpl in H. apply NoDup_remove_2 in H.
      intros Hin. apply H. apply in_or_app. now left.
Qed.

(** ** The environment mapper *)

(** C7: the environment mapper yields one [{name, value}] pair per entry of
    the mapping, in the order of the mapping's entries; reading the pairs
    back into a mapping gives the mapping it came from; the empty mapping
    gives the empty list. *)
Theorem map_environment_roundtrip (env : dict) :
  dict_wf env ->
  List.length (map_environment env) = List.length env
  /\ (forall i k v,
        nth_error env i = Some (k, v) ->
        nth_error (map_environment env) i
        = Some [("name", k); ("value", v)])
  /\ environment_of_pairs (map_environment env) = Some env
  /\ map_environment [] = [].
Proof.
  intros wf. repeat split.
  - unfold map_environment. apply length_map.
  - intros i k v H. unfold map_environment.
    rewrite nth_error_map, H. reflexivity.
  - unfold environment_of_pairs.
    now rewrite environment_of_pairs_from.
Qed.

Lemma map_environment_roundtrip_witness :
  dict_wf Sample.environment
  /\ environment_of_pairs (map_environment Sample.environment)
     = Some Sample.environment.
Proof.
  assert (wf : dict_wf Sample.environment).
  { unfold dict_wf. simpl. repeat constructor; simpl; intuition discriminate. }
  split; [exact wf|].
  exact (proj1 (proj2 (proj2 (map_environment_roundtrip Sample.environment wf)))).
Defined.

(** ** The resource mapper *)

(** C5: when only the CPU count is set, to a real number [c] that is not an
    integer, the resource mapper returns exactly one entry, of type VCPU,
    whose value is the decimal string of the ceiling of [c], and logs
    exactly one record, at level INFO; nothing is raised. *)
Theorem map_resource_settings_cpu_ceiling
  (repr_float : spec_float -> string)
  (memory_in : option string -> string -> spec_float) (c : spec_float) :
  is_finite c = true ->
  (forall n : Z, ~ (float_to_Q c == inject_Z n)%Q) ->
  let n := Qceiling (float_to_Q c) in
  (inject_Z (n - 1) < float_to_Q c <= inject_Z n)%Q
  /\ map_resource_settings repr_float memory_in
       {| cpu_count := Some c; gpu_count := None; memory := None |}
     = ([ {| level := INFO;
             message :=
               "AWS Batch only accepts int type cpu resource requirements. Converted "
               ++ repr_float c ++ " to " ++ str n |} ],
        Ok [ [("value", str n); ("type", "VCPU")] ]).
Proof.
  intros fin nonint n. split.
  - split; [apply Qceiling_lt | apply Qle_ceiling].
  - assert (ne : int_ne_float n c = true).
    { destruct c; try reflexivity; unfold int_ne_float;
        (destruct (Qeq_bool (inject_Z n) _) eqn:E; [|reflexivity]);
        apply Qeq_bool_eq in E; exfalso; apply (nonint n);
        symmetry; exact E. }
    unfold map_resource_settings, empty, get_memory. cbn [cpu_count gpu_count memory].
    assert (ceil : math_ceil c = Ok n).
    { destruct c; try discriminate fin; reflexivity. }
    rewrite ceil. cbn [lift bind]. rewrite ne. reflexivity.
Qed.

Lemma map_resource_settings_cpu_ceiling_witness :
  map_resource_settings Sample.repr_float Sample.memory_in
    {| cpu_count := Some Sample.cpu_2_875; gpu_count := None; memory := None |}
  = ([ {| level := INFO;
          message :=
            "AWS Batch only accepts int type cpu resource requirements. Converted 2.875 to 3" |} ],
     Ok [ [("value", "3"); ("type", "VCPU")] ]).
Proof.
  refine (proj2 (map_resource_settings_cpu_ceiling Sample.repr_float
                   Sample.memory_in Sample.cpu_2_875 _ _)).
  - reflexivity.
  - intros n. unfold Qeq. simpl. lia.
Defined.

(** C10: in every list the resource mapper returns, the CPU request has type
    VCPU, the GPU request type GPU and the memory request type MEMORY, in
    this order, each present exactly when its setting is; so no type occurs
    twice. *)
Theorem map_resource_settings_types
  (repr_float : spec_float -> string)
  (memory_in : option string -> string -> spec_float)
  (rs : ResourceSettings) (logs : list log_record) (reqs : list dict) :
  map_resource_settings repr_float memory_in rs = (logs, Ok reqs) ->
  types_of reqs
  = (when_set (cpu_count rs) "VCPU" ++ when_set (gpu_count rs) "GPU"
     ++ when_set (memory rs) "MEMORY")%list
  /\ NoDup (types_of reqs).
Proof.
  destruct rs as [cpu gpu mem].
  unfold map_resource_settings, empty, get_memory.
  cbn [cpu_count gpu_count memory].
  destruct cpu as [c|], gpu as [g|], mem as [m|];
    try (destruct (math_ceil c) as [n|e]; cbn [lift bind]);
    try destruct (int_ne_float n c);
    try destruct (int_of_float (memory_in (Some "MiB") m)) as [mib|e'];
    cbn; intros H; inversion H; subst; cbn;
    (split; [reflexivity|]);
    repeat constructor; cbn; intuition discriminate.
Qed.

Lemma map_resource_settings_types_witness :
  types_of
    [ [("value", "3"); ("type", "VCPU")];
      [("value", "2"); ("type", "GPU")];
      [("value", "512"); ("type", "MEMORY")] ]
  = [Some "VCPU"; Some "GPU"; Some "MEMORY"]
  /\ NoDup [Some "VCPU"; Some "GPU"; Some "MEMORY"].
Proof.
  exact (map_resource_settings_types Sample.repr_float Sample.memory_in
           Sample.resources _ _ eq_refl).
Defined.

(** ** The job name generator *)

(** C6: the generated job name is the string [<pipeline>-<step>] cut to its
    first 55 characters at most, then a hyphen, then the random suffix of 4
    characters; it is at most 63 characters long. *)
Theorem generate_unique_batch_job_name_length
  (get_run_step_name : string -> string) (random_str : nat -> string)
  (info : StepRunInfo) :
  String.length (random_str 4%nat) = 4%nat ->
  let full := pipeline_name info ++ "-" ++ get_run_step_name (step_run_id info) in
  let name := generate_unique_batch_job_name get_run_step_name random_str info in
  exists base suffix,
    name = base ++ "-" ++ suffix
    /\ suffix = random_str 4%nat
    /\ String.length suffix = 4%nat
    /\ prefix base full = true
    /\ String.length base = Nat.min 55 (String.length full)
    /\ (String.length name <= 63)%nat.
Proof.
  intros len full name.
  exists (slice_to 55 full), (random_str 4%nat).
  repeat split.
  - exact len.
  - apply slice_to_prefix.
  - apply slice_to_length.
  - unfold name, generate_unique_batch_job_name. fold full.
    rewrite !length_append, slice_to_length, len. simpl String.length. lia.
Qed.

Lemma generate_unique_batch_job_name_length_witness :
  exists base suffix,
    generate_unique_batch_job_name Sample.get_run_step_name Sample.random_str
      (Sample.info 1)
    = base ++ "-" ++ suffix
    /\ suffix = "awsb"
    /\ String.length suffix = 4%nat
    /\ prefix base "training-trainer" = true
    /\ String.length base = 16%nat
    /\ (String.length
          (generate_unique_batch_job_name Sample.get_run_step_name
             Sample.random_str (Sample.info 1)) <= 63)%nat.
Proof.
  exact (generate_unique_batch_job_name_length Sample.get_run_step_name
           Sample.random_str (Sample.info 1) eq_refl).
Defined.

(** ** The job definition compiler *)

(** The container properties reach both model constructors as a tuple, so
    the compiler raises on every input: what the resource mapper raised, or
    else pydantic's refusal of the tuple. *)
Lemma generate_job_definition_outcome
  (repr_float : spec_float -> string)
  (memory_in : option string -> string -> spec_float)
  (get_run_step_name : string -> string) (random_str : nat -> string)
  (config : AWSBatchStepOperatorConfig) (info : StepRunInfo)
  (entrypoint_command : list string) (environment : dict) :
  generate_job_definition repr_float memory_in get_run_step_name random_str
    config info entrypoint_command environment
  = (fst (map_resource_settings repr_float memory_in (resource_settings info)),
     match
       snd (map_resource_settings repr_float memory_in (resource_settings info))
     with
     | Raise e => Raise e
     | Ok _ =>
         if (node_count (get_settings info) =? 1)%Z
         then Raise (ValidationError "AWSBatchJobDefinition"
                       "containerProperties")
         else Raise (ValidationError
                       "AWSBatchJobDefinitionNodePropertiesNodeRangeProperty"
                       "container")
     end).
Proof.
  unfold generate_job_definition.
  destruct (map_resource_settings repr_float memory_in (resource_settings info))
    as [logs [mapped|e]]; cbn [bind fst snd]; [|reflexivity].
  destruct (node_count (get_settings info) =? 1)%Z;
    cbn; now rewrite app_nil_r.
Qed.


(** C2 (what the code does): with a node count of 1 the compiler returns no
    definition.  The container properties are bound to a 1-tuple, which the
    [containerProperties] field refuses with a ValidationError, unless the
    resource mapper has raised before. *)
Theorem generate_job_definition_single_node_raises
  (repr_float : spec_float -> string)
  (memory_in : option string -> string -> spec_float)
  (get_run_step_name : string -> string) (random_str : nat -> string)
  (config : AWSBatchStepOperatorConfig) (info : StepRunInfo)
  (entrypoint_command : list string) (environment : dict) :
  snd (generate_job_definition repr_float memory_in get_run_step_name
         random_str config (with_node_count 1 info) entrypoint_command
         environment)
  = match
      snd (map_resource_settings repr_float memory_in (resource_settings info))
    with
    | Raise e => Raise e
    | Ok _ => Raise (ValidationError "AWSBatchJobDefinition"
                       "containerProperties")
    end.
Proof.
  rewrite generate_job_definition_outcome. reflexivity.
Qed.

(** The target node string of three nodes. *)
Example target_nodes_of_three : join "," (map str (range 3)) = "0,1,2".
Proof. reflexivity. Qed.

(** C4 (what the code does): with a node count of 2 or more the compiler
    returns no definition.  The node range entry is given the 1-tuple as its
    [container] and refuses it with a ValidationError, unless the resource
    mapper has raised before. *)
Theorem generate_job_definition_multi_node_raises
  (repr_float : spec_float -> string)
  (memory_in : option string -> string -> spec_float)
  (get_run_step_name : string -> string) (random_str : nat -> string)
  (config : AWSBatchStepOperatorConfig) (info : StepRunInfo)
  (entrypoint_command : list string) (environment : dict) (k : nat) :
  snd (generate_job_definition repr_float memory_in get_run_step_name
         random_str config (with_node_count (Z.of_nat k + 2) info)
         entrypoint_command environment)
  = match
      snd (map_resource_settings repr_float memory_in (resource_settings info))
    with
    | Raise e => Raise e
    | Ok _ => Raise (ValidationError
                       "AWSBatchJobDefinitionNodePropertiesNodeRangeProperty"
                       "container")
    end.
Proof.
  rewrite generate_job_definition_outcome.
  cbn [with_node_count get_settings node_count resource_settings].
  destruct (Z.eqb_spec (Z.of_nat k + 2) 1) as [E|_]; [lia | reflexivity].
Qed.



(** ** Submission and polling *)

(** A status that is a string equals neither one-element list. *)
Lemma py_eqb_str_list (s : string) (l : list pyval) :
  py_eqb (PyStr s) (PyList l) = false.
Proof. reflexivity. Qed.

(** The two branches of the loop are taken for a status that is itself a
    list, which the service never sends. *)
Lemma poll_list_status (reason : option string) (job_id : string)
  (fuel k : nat) :
  snd (poll (Sample.answering (PyList [PyStr "SUCCEEDED"]) reason)
         job_id (S fuel) k) = Finished (Ok tt)
  /\ snd (poll (Sample.answering (PyList [PyStr "FAILED"]) None)
            job_id (S fuel) k)
     = Finished (Raise (RuntimeError ("Job " ++ job_id ++ " failed: Unknown"))).
Proof. split; reflexivity. Qed.

(** C1 (what the code does): the loop compares the status with the lists
    [['SUCCEEDED']] and [['FAILED']].  The service answers with a string, so
    whatever the status, SUCCEEDED and FAILED among them, and however many
    queries are allowed, the loop sleeps after every query and is still
    polling: it neither logs completion and returns nor raises. *)
Theorem poll_string_status_never_ends
  (s : string) (reason : option string) (job_id : string) (fuel k : nat) :
  poll (Sample.answering (PyStr s) reason) job_id fuel k
  = (concat (repeat [DescribeJobs [job_id]; Sleep 10] fuel), Polling).
Proof.
  revert k. induction fuel as [|fuel IH]; intros k; [reflexivity|].
  cbn [poll Sample.answering describe_jobs jobs status].
  rewrite !py_eqb_str_list, IH. reflexivity.
Qed.

(** C3: launched with a node count of 0, the operator fails before it
    reaches the remote service: the run ends in pydantic's ValidationError
    (or in what the resource mapper raised before it), the trace holds the
    log records of the resource mapper and no call to the batch client, and
    this for every behaviour of the service.  The node properties model
    itself refuses 0 nodes. *)
Theorem launch_zero_nodes_fails_locally
  (repr_float : spec_float -> string)
  (memory_in : option string -> string -> spec_float)
  (get_run_step_name : string -> string) (random_str : nat -> string)
  (batch : BatchClient) (config : AWSBatchStepOperatorConfig)
  (info : StepRunInfo) (entrypoint_command : list string)
  (environment : dict) (fuel : nat) :
  let mapped :=
    map_resource_settings repr_float memory_in (resource_settings info) in
  let out :=
    launch repr_float memory_in get_run_step_name random_str batch config
      (with_node_count 0 info) entrypoint_command environment fuel in
  snd out
  = Finished (Raise
      match snd mapped with
      | Raise e => e
      | Ok _ => ValidationError
                  "AWSBatchJobDefinitionNodePropertiesNodeRangeProperty"
                  "container"
      end)
  /\ fst out = map Logged (fst mapped)
  /\ filter is_batch_call (fst out) = []
  /\ (forall ranges,
        new_NodeProperties 0 ranges
        = Raise (ValidationError "AWSBatchJobDefinitionNodeProperties"
                   "numNodes")).
Proof.
  cbv zeta. unfold launch, embed.
  rewrite generate_job_definition_outcome.
  cbn [with_node_count get_settings node_count resource_settings fst snd].
  assert (nocall : forall l : list log_record,
             filter is_batch_call (map Logged l) = []).
  { induction l as [|r l IH]; [reflexivity | exact IH]. }
  destruct (snd (map_resource_settings repr_float memory_in
                   (resource_settings info))) as [m|e];
    cbn [fst snd Z.eqb]; repeat split; auto.
Qed.

(** ** More on the environment mapper *)

Lemma get_In (d : dict) (k v : string) :
  dict_wf d -> (get d k = Some v <-> In (k, v) d).
Proof.
  unfold dict_wf.
  induction d as [|[k' v'] d IH]; simpl; intros wf.
  - split; [discriminate | contradiction].
  - inversion wf as [|? ? notin wf']; subst.
    destruct (String.eqb_spec k k') as [->|ne].
    + split.
      * intros [= ->]. now left.
      * intros [[= ->]|Hin]; [reflexivity|].
        exfalso. apply notin. change k' with (fst (k', v)).
        now apply in_map.
    + rewrite (IH wf'). split.
      * intros H. now right.
      * intros [[= -> ->]|H]; [now elim ne | exact H].
Qed.

(** X1: the environment mapper loses nothing: two mappings with the same
    list of pairs are the same mapping, entries and order. *)
Theorem map_environment_injective (env1 env2 : dict) :
  map_environment env1 = map_environment env2 -> env1 = env2.
Proof.
  revert env2.
  induction env1 as [|[k v] env1 IH]; intros [|[k' v'] env2]; simpl;
    intros H; try discriminate H; [reflexivity|].
  injection H as -> -> H. f_equal. now apply IH.
Qed.

Lemma map_environment_injective_witness :
  [("ZENML_DEBUG", "true"); ("AWS_REGION", "eu-west-1")]
  = Sample.environment.
Proof.
  exact (map_environment_injective
           [("ZENML_DEBUG", "true"); ("AWS_REGION", "eu-west-1")]
           Sample.environment eq_refl).
Defined.

(** X2: a variable has a value in the environment exactly when the mapped
    list holds the pair of that name and that value. *)
Theorem map_environment_lookup (env : dict) (k v : string) :
  dict_wf env ->
  (get env k = Some v
   <-> In [("name", k); ("value", v)] (map_environment env)).
Proof.
  intros wf. rewrite (get_In env k v wf).
  unfold map_environment. rewrite in_map_iff. split.
  - intros H. exists (k, v). now split.
  - intros [[k' v'] [[= -> ->] H]]. exact H.
Qed.

Lemma map_environment_lookup_witness :
  get Sample.environment "AWS_REGION" = Some "eu-west-1"
  <-> In [("name", "AWS_REGION"); ("value", "eu-west-1")]
         (map_environment Sample.environment).
Proof.
  apply (map_environment_lookup Sample.environment).
  unfold dict_wf. simpl. repeat constructor; simpl; intuition discriminate.
Defined.

(** ** More on the resource mapper *)

Lemma math_ceil_finite (c : spec_float) :
  is_finite c = true -> math_ceil c = Ok (Qceiling (float_to_Q c)).
Proof. destruct c; try discriminate; reflexivity. Qed.


Lemma int_of_float_finite (x : spec_float) :
  is_finite x = true ->
  int_of_float x
  = Ok (Z.quot (Qnum (float_to_Q x)) (Z.pos (Qden (float_to_Q x)))).
Proof. destruct x; try discriminate; reflexivity. Qed.


Lemma int_of_str_str (z : Z) : int_of_str (str z) = Some z.
Proof.
  unfold int_of_str, str. rewrite NilZero.isi.
  - simpl. now rewrite DecimalZ.of_to.
  - destruct z; simpl; try discriminate.
    intros [= H]. now apply DecimalPos.Unsigned.to_uint_nonnil in H.
  - destruct z; simpl; try discriminate.
    intros [= H]. now apply DecimalPos.Unsigned.to_uint_nonnil in H.
Qed.


Lemma math_ceil_ok (c : spec_float) (n : Z) :
  math_ceil c = Ok n ->
  is_finite c = true /\ n = Qceiling (float_to_Q c).
Proof. destruct c; simpl; intros [=]; subst; auto. Qed.

Lemma int_ne_float_finite (n : Z) (c : spec_float) :
  is_finite c = true ->
  int_ne_float n c = negb (Qeq_bool (inject_Z n) (float_to_Q c)).
Proof. destruct c; try discriminate; reflexivity. Qed.

(** X4: a CPU count that is a whole number is passed on as it is, and
    nothing is logged, whatever else is set. *)
Theorem map_resource_settings_integral_cpu
  (repr_float : spec_float -> string)
  (memory_in : option string -> string -> spec_float)
  (rs : ResourceSettings) (c : spec_float) (n : Z) :
  cpu_count rs = Some c ->
  is_finite c = true ->
  (float_to_Q c == inject_Z n)%Q ->
  fst (map_resource_settings repr_float memory_in rs) = []
  /\ (forall reqs,
        snd (map_resource_settings repr_float memory_in rs) = Ok reqs ->
        exists rest, reqs = [("value", str n); ("type", "VCPU")] :: rest).
Proof.
  intros Hcpu fin whole.
  assert (ceil : math_ceil c = Ok n).
  { rewrite (math_ceil_finite c fin). f_equal.
    rewrite whole. apply Qceiling_Z. }
  assert (same : int_ne_float n c = false).
  { rewrite (int_ne_float_finite n c fin).
    apply negb_false_iff, Qeq_bool_iff. now symmetry. }
  destruct rs as [cpu gpu mem]. cbn [cpu_count] in Hcpu. subst cpu.
  unfold map_resource_settings, empty, get_memory.
  cbn [cpu_count gpu_count memory]. rewrite ceil. cbn [lift bind].
  rewrite same.
  destruct gpu as [g|], mem as [m|];
    try (destruct (int_of_float (memory_in (Some "MiB") m)) as [mib|e0]);
    cbn; (split; [reflexivity|]);
    intros reqs Hr; try discriminate Hr; injection Hr as <-;
    eexists; reflexivity.
Qed.

Lemma map_resource_settings_integral_cpu_witness :
  fst (map_resource_settings Sample.repr_float Sample.memory_in
         {| cpu_count := Some (S754_finite false 3 2);
            gpu_count := Some 1;
            memory := None |}) = [].
Proof.
  refine (proj1 (map_resource_settings_integral_cpu Sample.repr_float
                   Sample.memory_in
                   {| cpu_count := Some (S754_finite false 3 2);
                      gpu_count := Some 1;
                      memory := None |}
                   (S754_finite false 3 2) 12 eq_refl eq_refl _)).
  reflexivity.
Defined.

(** X5: the resource mapper logs at most one record, at level INFO, and
    only for a CPU count that is not a whole number. *)
Theorem map_resource_settings_logs
  (repr_float : spec_float -> string)
  (memory_in : option string -> string -> spec_float)
  (rs : ResourceSettings) :
  fst (map_resource_settings repr_float memory_in rs) = []
  \/ exists c,
       cpu_count rs = Some c
       /\ is_finite c = true
       /\ ~ (float_to_Q c == inject_Z (Qceiling (float_to_Q c)))%Q
       /\ fst (map_resource_settings repr_float memory_in rs)
          = [ {| level := INFO;
                 message :=
                   "AWS Batch only accepts int type cpu resource requirements. Converted "
                   ++ repr_float c ++ " to "
                   ++ str (Qceiling (float_to_Q c)) |} ].
Proof.
  destruct rs as [cpu gpu mem].
  unfold map_resource_settings, empty, get_memory.
  cbn [cpu_count gpu_count memory].
  destruct cpu as [c|].
  - destruct (math_ceil c) as [n|e] eqn:Hceil.
    + apply math_ceil_ok in Hceil. destruct Hceil as [fin ->].
      cbn [lift bind].
      destruct (int_ne_float (Qceiling (float_to_Q c)) c) eqn:Hne.
      * right. exists c. repeat split; try assumption.
        -- rewrite (int_ne_float_finite _ c fin) in Hne.
           apply negb_true_iff in Hne. intros E.
           apply Qeq_bool_neq in Hne. apply Hne. now symmetry.
        -- destruct gpu as [g|], mem as [m|];
             try (destruct (int_of_float (memory_in (Some "MiB") m)));
             reflexivity.
      * left.
        destruct gpu as [g|], mem as [m|];
          try (destruct (int_of_float (memory_in (Some "MiB") m)));
          reflexivity.
    + left. destruct gpu, mem; reflexivity.
  - left.
    destruct gpu as [g|], mem as [m|];
      try (destruct (int_of_float (memory_in (Some "MiB") m)));
      reflexivity.
Qed.

(** X6: whenever a CPU count is set and the mapper returns, the CPU entry
    comes first and its value [n] is the count rounded up: the count is
    at most [n] and more than [n - 1], so the request is never below what
    was asked for. *)
Theorem map_resource_settings_cpu_rounds_up
  (repr_float : spec_float -> string)
  (memory_in : option string -> string -> spec_float)
  (rs : ResourceSettings) (c : spec_float)
  (logs : list log_record) (reqs : list dict) :
  cpu_count rs = Some c ->
  map_resource_settings repr_float memory_in rs = (logs, Ok reqs) ->
  exists n rest,
    reqs = [("value", str n); ("type", "VCPU")] :: rest
    /\ is_finite c = true
    /\ (inject_Z (n - 1) < float_to_Q c <= inject_Z n)%Q.
Proof.
  intros Hcpu.
  destruct rs as [cpu gpu mem]. cbn [cpu_count] in Hcpu. subst cpu.
  unfold map_resource_settings, empty, get_memory.
  cbn [cpu_count gpu_count memory].
  destruct (math_ceil c) as [n|e] eqn:Hceil; cbn [lift bind].
  - apply math_ceil_ok in Hceil. destruct Hceil as [fin ->].
    destruct (int_ne_float _ c), gpu as [g|], mem as [m|];
      try (destruct (int_of_float (memory_in (Some "MiB") m)) as [mib|e0]);
      cbn; intros Hr; try discriminate Hr; injection Hr as <- <-;
      eexists; eexists;
      (split; [reflexivity | split; [exact fin | split;
         [apply Qceiling_lt | apply Qle_ceiling]]]).
  - intros Hr. discriminate Hr.
Qed.

Lemma map_resource_settings_cpu_rounds_up_witness :
  exists n rest,
    [ [("value", "3"); ("type", "VCPU")];
      [("value", "2"); ("type", "GPU")];
      [("value", "512"); ("type", "MEMORY")] ]
    = [("value", str n); ("type", "VCPU")] :: rest
    /\ is_finite Sample.cpu_2_875 = true
    /\ (inject_Z (n - 1) < float_to_Q Sample.cpu_2_875 <= inject_Z n)%Q.
Proof.
  exact (map_resource_settings_cpu_rounds_up Sample.repr_float
           Sample.memory_in Sample.resources Sample.cpu_2_875 _ _
           eq_refl eq_refl).
Defined.

Lemma quot_floor (q : Q) :
  (0 <= q)%Q -> Z.quot (Qnum q) (Z.pos (Qden q)) = Qfloor q.
Proof.
  destruct q as [a b]. unfold Qle. simpl. intros H.
  apply Z.quot_div_nonneg; lia.
Qed.

Lemma quot_ceiling (q : Q) :
  (q <= 0)%Q -> Z.quot (Qnum q) (Z.pos (Qden q)) = Qceiling q.
Proof.
  destruct q as [a b]. unfold Qle, Qceiling, Qfloor, Qopp. simpl. intros H.
  rewrite <- (Z.opp_involutive a) at 1. rewrite Z.quot_opp_l by lia.
  f_equal. apply Z.quot_div_nonneg; lia.
Qed.

(** X7: the memory entry is the amount in MiB cut towards zero: for an
    amount that is not negative it is rounded down, so the request can be
    up to one MiB below what was asked for (for a negative amount it is
    rounded up). *)
Theorem map_resource_settings_memory_truncates
  (repr_float : spec_float -> string)
  (memory_in : option string -> string -> spec_float) (m : string) :
  is_finite (memory_in (Some "MiB") m) = true ->
  let q := float_to_Q (memory_in (Some "MiB") m) in
  exists t,
    map_resource_settings repr_float memory_in
      {| cpu_count := None; gpu_count := None; memory := Some m |}
    = ([], Ok [ [("value", str t); ("type", "MEMORY")] ])
    /\ ((0 <= q)%Q -> (inject_Z t <= q < inject_Z (t + 1))%Q)
    /\ ((q <= 0)%Q -> (inject_Z (t - 1) < q <= inject_Z t)%Q).
Proof.
  intros fin q.
  exists (Z.quot (Qnum q) (Z.pos (Qden q))). split; [|split].
  - unfold map_resource_settings, empty, get_memory.
    cbn [cpu_count gpu_count memory].
    rewrite (int_of_float_finite _ fin). reflexivity.
  - intros pos. rewrite (quot_floor q pos).
    split; [apply Qfloor_le | apply Qlt_floor].
  - intros neg. rewrite (quot_ceiling q neg).
    split; [apply Qceiling_lt | apply Qle_ceiling].
Qed.

Lemma map_resource_settings_memory_truncates_witness :
  exists t,
    map_resource_settings Sample.repr_float Sample.memory_in
      {| cpu_count := None; gpu_count := None; memory := Some "512MiB" |}
    = ([], Ok [ [("value", str t); ("type", "MEMORY")] ]).
Proof.
  destruct (map_resource_settings_memory_truncates Sample.repr_float
              Sample.memory_in "512MiB" eq_refl) as [t [H _]].
  exists t. exact H.
Defined.

(** X8: whenever a GPU count is set and the mapper returns, the list holds
    an entry of type GPU whose value reads back as that count. *)
Theorem map_resource_settings_gpu_reads_back
  (repr_float : spec_float -> string)
  (memory_in : option string -> string -> spec_float)
  (rs : ResourceSettings) (g : Z)
  (logs : list log_record) (reqs : list dict) :
  gpu_count rs = Some g ->
  map_resource_settings repr_float memory_in rs = (logs, Ok reqs) ->
  exists entry,
    In entry reqs
    /\ get entry "type" = Some "GPU"
    /\ match get entry "value" with
       | Some v => int_of_str v
       | None => None
       end = Some g.
Proof.
  intros Hgpu.
  destruct rs as [cpu gpu mem]. cbn [gpu_count] in Hgpu. subst gpu.
  unfold map_resource_settings, empty, get_memory.
  cbn [cpu_count gpu_count memory].
  destruct cpu as [c|], mem as [m|];
    try (destruct (math_ceil c) as [n|e] eqn:Hceil; cbn [lift bind]);
    try (destruct (int_ne_float n c) eqn:Hne);
    try (destruct (int_of_float (memory_in (Some "MiB") m)) as [mib|e0]
           eqn:Hint);
    cbn; intros Hr; try discriminate Hr; injection Hr as <- <-;
    exists [("value", str g); ("type", "GPU")];
    (split; [simpl; auto | split; [reflexivity | apply int_of_str_str]]).
Qed.

Lemma map_resource_settings_gpu_reads_back_witness :
  exists entry,
    In entry
      [ [("value", "3"); ("type", "VCPU")];
        [("value", "2"); ("type", "GPU")];
        [("value", "512"); ("type", "MEMORY")] ]
    /\ get entry "type" = Some "GPU"
    /\ match get entry "value" with
       | Some v => int_of_str v
       | None => None
       end = Some 2.
Proof.
  exact (map_resource_settings_gpu_reads_back Sample.repr_float
           Sample.memory_in Sample.resources 2 _ _ eq_refl eq_refl).
Defined.

(** ** More on the job name generator *)

Lemma slice_to_append (n : nat) (a b : string) :
  (n <= String.length a)%nat -> slice_to n (a ++ b) = slice_to n a.
Proof.
  unfold slice_to. revert a.
  induction n as [|n IH]; intros [|c a]; simpl; intros H;
    try reflexivity; try lia.
  - now destruct b.
  - f_equal. apply IH. lia.
Qed.

Lemma append_assoc (a b c : string) : (a ++ b) ++ c = a ++ b ++ c.
Proof.
  induction a as [|x a IH]; simpl; [reflexivity | now rewrite IH].
Qed.

(** X9: when [<pipeline>-<step>] has 55 characters at most, nothing is cut:
    the job name is that string, a hyphen and the random suffix. *)
Theorem generate_unique_batch_job_name_short
  (get_run_step_name : string -> string) (random_str : nat -> string)
  (info : StepRunInfo) :
  (String.length (pipeline_name info) + 1
   + String.length (get_run_step_name (step_run_id info)) <= 55)%nat ->
  generate_unique_batch_job_name get_run_step_name random_str info
  = pipeline_name info ++ "-" ++ get_run_step_name (step_run_id info)
    ++ "-" ++ random_str 4%nat.
Proof.
  intros H. unfold generate_unique_batch_job_name.
  rewrite slice_to_short.
  - now rewrite !append_assoc.
  - rewrite !length_append. simpl String.length. lia.
Qed.

Lemma generate_unique_batch_job_name_short_witness :
  generate_unique_batch_job_name Sample.get_run_step_name Sample.random_str
    (Sample.info 1)
  = "training-trainer-awsb".
Proof.
  refine (generate_unique_batch_job_name_short Sample.get_run_step_name
            Sample.random_str (Sample.info 1) _).
  simpl. lia.
Defined.

(** X10: when the pipeline name alone has 55 characters or more, the step
    name does not reach the job name: all steps of the pipeline get the
    first 55 characters of the pipeline name, a hyphen and the random
    suffix, 60 characters when the suffix has 4. *)
Theorem generate_unique_batch_job_name_long_pipeline
  (random_str : nat -> string) (info : StepRunInfo) :
  (55 <= String.length (pipeline_name info))%nat ->
  forall get_run_step_name : string -> string,
    generate_unique_batch_job_name get_run_step_name random_str info
    = slice_to 55 (pipeline_name info) ++ "-" ++ random_str 4%nat
    /\ String.length
         (generate_unique_batch_job_name get_run_step_name random_str info)
       = (56 + String.length (random_str 4%nat))%nat.
Proof.
  intros H get_run_step_name. unfold generate_unique_batch_job_name.
  rewrite (slice_to_append 55 (pipeline_name info) _ H). split.
  - reflexivity.
  - rewrite !length_append, slice_to_length. simpl String.length. lia.
Qed.

Lemma generate_unique_batch_job_name_long_pipeline_witness :
  generate_unique_batch_job_name (fun _ => "load") Sample.random_str
    Scenario.long_info
  = generate_unique_batch_job_name (fun _ => "train") Sample.random_str
      Scenario.long_info.
Proof.
  assert (H : (55 <= String.length (pipeline_name Scenario.long_info))%nat)
    by (simpl; lia).
  rewrite (proj1 (generate_unique_batch_job_name_long_pipeline
                    Sample.random_str Scenario.long_info H
                    (fun _ => "load"))).
  rewrite (proj1 (generate_unique_batch_job_name_long_pipeline
                    Sample.random_str Scenario.long_info H
                    (fun _ => "train"))).
  reflexivity.
Defined.

(** ** More on submission and polling *)

(** X11: whatever the inputs and however the service behaves, [launch]
    raises before it reaches the service: no job definition is registered,
    no job submitted, no status asked for; the trace holds the log records
    of the resource mapper only. *)
Theorem launch_never_reaches_the_service
  (repr_float : spec_float -> string)
  (memory_in : option string -> string -> spec_float)
  (get_run_step_name : string -> string) (random_str : nat -> string)
  (batch : BatchClient) (config : AWSBatchStepOperatorConfig)
  (info : StepRunInfo) (entrypoint_command : list string)
  (environment : dict) (fuel : nat) :
  let out :=
    launch repr_float memory_in get_run_step_name random_str batch config
      info entrypoint_command environment fuel in
  (exists e, snd out = Finished (Raise e))
  /\ filter is_batch_call (fst out) = []
  /\ fst out
     = map Logged
         (fst (map_resource_settings repr_float memory_in
                 (resource_settings info))).
Proof.
  cbv zeta. unfold launch, embed.
  rewrite generate_job_definition_outcome. cbn [fst snd].
  assert (nocall : forall l : list log_record,
             filter is_batch_call (map Logged l) = []).
  { induction l as [|r l IH]; [reflexivity | exact IH]. }
  destruct (snd (map_resource_settings repr_float memory_in
                   (resource_settings info))) as [m|e].
  - destruct (node_count (get_settings info) =? 1)%Z; cbn [fst snd];
      repeat split; auto; eexists; reflexivity.
  - cbn [fst snd]. repeat split; auto. eexists; reflexivity.
Qed.

(** After [n] answers that keep the loop going, the loop has asked and
    slept [n] times and goes on from the next query. *)
Lemma poll_skip (batch : BatchClient) (job_id : string) (n fuel k : nat) :
  (forall i, (i < n)%nat ->
             keeps_polling (describe_jobs batch (k + i) [job_id]) = true) ->
  poll batch job_id (n + fuel) k
  = ((concat (repeat (round job_id) n)
      ++ fst (poll batch job_id fuel (k + n)))%list,
     snd (poll batch job_id fuel (k + n))).
Proof.
  revert k. induction n as [|n IH]; intros k H.
  - rewrite Nat.add_0_r. simpl. now destruct (poll batch job_id fuel k).
  - cbn [Nat.add poll].
    specialize (H 0%nat (Nat.lt_0_succ n)) as H0.
    rewrite Nat.add_0_r in H0. unfold keeps_polling in H0.
    destruct (describe_jobs batch k [job_id]) as [response|e];
      [|discriminate H0].
    destruct (jobs response) as [|job rest]; [discriminate H0|].
    apply andb_true_iff in H0. destruct H0 as [H1 H2].
    apply negb_true_iff in H1, H2. rewrite H1, H2.
    rewrite IH.
    + rewrite Nat.add_succ_r. reflexivity.
    + intros i Hi. rewrite Nat.add_succ_l, <- Nat.add_succ_r.
      apply H. lia.
Qed.

(** X13: the shape of every trace of the loop: some rounds of one status
    query for the job followed by a sleep of 10, then, if the loop has
    ended, one last query and at most one log record and no sleep.  The
    loop asks at most once per unit of fuel and always for the one job. *)
Theorem poll_trace_shape
  (batch : BatchClient) (job_id : string) (fuel k : nat) :
  exists n last,
    fst (poll batch job_id fuel k)
    = (concat (repeat (round job_id) n) ++ last)%list
    /\ match snd (poll batch job_id fuel k) with
       | Polling => n = fuel /\ last = []
       | Finished _ =>
           (n < fuel)%nat
           /\ exists logs,
                last = DescribeJobs [job_id] :: map Logged logs
                /\ (List.length logs <= 1)%nat
       end.
Proof.
  revert k. induction fuel as [|fuel IH]; intros k.
  - exists 0%nat, []. split; [reflexivity | split; reflexivity].
  - cbn [poll].
    destruct (describe_jobs batch k [job_id]) as [response|e].
    + destruct (jobs response) as [|job rest].
      * exists 0%nat, [DescribeJobs [job_id]]. split; [reflexivity|].
        split; [lia|]. exists []. split; [reflexivity | simpl; lia].
      * destruct (py_eqb (status job) (PyList [PyStr "SUCCEEDED"])).
        { exists 0%nat. eexists. split; [reflexivity|].
          split; [lia|]. eexists [_]. split; [reflexivity | simpl; lia]. }
        destruct (py_eqb (status job) (PyList [PyStr "FAILED"])).
        { exists 0%nat. eexists. split; [reflexivity|].
          split; [lia|]. exists []. split; [reflexivity | simpl; lia]. }
        destruct (IH (S k)) as [n [last [Ht Hr]]].
        destruct (poll batch job_id fuel (S k)) as [t r].
        cbn [fst snd] in *. subst t.
        exists (S n), last. split; [reflexivity|].
        destruct r as [r|].
        -- destruct Hr as [Hn Hl]. split; [lia | exact Hl].
        -- destruct Hr as [-> ->]. split; reflexivity.
    + destruct e;
        try (exists 0%nat, [DescribeJobs [job_id]]; split; [reflexivity|];
             split; [lia|]; exists []; split; [reflexivity | simpl; lia]).
      exists 0%nat. eexists. split; [reflexivity|].
      split; [lia|]. eexists [_]. split; [reflexivity | simpl; lia].
Qed.

(** X14: against a service that reports the status as a string, the loop
    has no way to a verdict: when it ends, it ends because a status query
    raised, with that very exception, or because a response held no job,
    with IndexError.  It never returns normally and never reports the job
    as failed. *)
Theorem poll_string_statuses_no_verdict
  (batch : BatchClient) (job_id : string) (fuel k : nat) (r : result unit) :
  string_statuses batch ->
  snd (poll batch job_id fuel k) = Finished r ->
  exists k',
    (k <= k' < k + fuel)%nat
    /\ match describe_jobs batch k' [job_id] with
       | Raise e => r = Raise e
       | Ok response => jobs response = [] /\ r = Raise IndexError
       end.
Proof.
  intros strings. revert k.
  induction fuel as [|fuel IH]; intros k H; [discriminate H|].
  cbn [poll] in H.
  destruct (describe_jobs batch k [job_id]) as [response|e] eqn:E.
  - destruct (jobs response) as [|job rest] eqn:J.
    + exists k. split; [lia|]. rewrite E. split; [exact J|].
      cbn [snd] in H. now injection H as <-.
    + destruct (strings k [job_id] response job rest E J) as [s Hs].
      rewrite Hs, !py_eqb_str_list in H.
      destruct (poll batch job_id fuel (S k)) as [t r'] eqn:P.
      cbn [snd] in H. subst r'.
      destruct (IH (S k)) as [k' [Hk Hd]]; [now rewrite P|].
      exists k'. split; [lia | exact Hd].
  - exists k. split; [lia|]. rewrite E.
    destruct e; cbn [snd] in H; now injection H as <-.
Qed.

Lemma poll_string_statuses_no_verdict_witness :
  exists k',
    (0 <= k' < 0 + 5)%nat
    /\ match
         describe_jobs
           (Scenario.running_then 2 (Raise (ClientError "throttled")))
           k' ["job-1"]
       with
       | Raise e => @Raise unit (ClientError "throttled") = Raise e
       | Ok response =>
           jobs response = []
           /\ Raise (ClientError "throttled") = @Raise unit IndexError
       end.
Proof.
  refine (poll_string_statuses_no_verdict
            (Scenario.running_then 2 (Raise (ClientError "throttled")))
            "job-1" 5 0 (Raise (ClientError "throttled")) _ eq_refl).
  intros k ids response job rest H J.
  unfold Scenario.running_then, describe_jobs in H.
  destruct (k <? 2)%nat; [|discriminate H].
  injection H as <-. injection J as <- _. now exists "RUNNING".
Defined.

(** X15: when a status query raises ClientError after [n] answers that kept
    the loop going, the loop logs one ERROR record that names the job and
    the error, raises the same ClientError, and neither sleeps nor asks
    again. *)
Theorem poll_client_error
  (batch : BatchClient) (job_id e : string) (n fuel : nat) :
  (forall i, (i < n)%nat ->
             keeps_polling (describe_jobs batch i [job_id]) = true) ->
  describe_jobs batch n [job_id] = Raise (ClientError e) ->
  poll batch job_id (n + S fuel) 0
  = ((concat (repeat (round job_id) n)
      ++ [DescribeJobs [job_id];
          Logged {| level := ERROR;
                    message := "Failed to describe job " ++ job_id
                               ++ ": " ++ e |}])%list,
     Finished (Raise (ClientError e))).
Proof.
  intros pending failure.
  rewrite (poll_skip batch job_id n (S fuel) 0 pending).
  cbn [Nat.add poll]. rewrite failure. reflexivity.
Qed.

Lemma poll_client_error_witness :
  poll (Scenario.running_then 2 (Raise (ClientError "throttled")))
    "job-1" (2 + 1) 0
  = ((concat (repeat (round "job-1") 2)
      ++ [DescribeJobs ["job-1"];
          Logged {| level := ERROR;
                    message := "Failed to describe job job-1: throttled" |}])
       %list,
     Finished (Raise (ClientError "throttled"))).
Proof.
  refine (poll_client_error
            (Scenario.running_then 2 (Raise (ClientError "throttled")))
            "job-1" "throttled" 2 0 _ eq_refl).
  intros i Hi.
  destruct i as [|[|i]]; [reflexivity | reflexivity | lia].
Defined.

(** X16: an exception of the status query that is not a ClientError, and
    the IndexError of a response without jobs, pass through the loop
    unlogged: the trace ends with the query. *)
Theorem poll_other_errors_unlogged
  (batch : BatchClient) (job_id : string) (n fuel : nat) (e : exn) :
  (forall i, (i < n)%nat ->
             keeps_polling (describe_jobs batch i [job_id]) = true) ->
  (forall msg, e <> ClientError msg) ->
  describe_jobs batch n [job_id] = Raise e
  \/ (describe_jobs batch n [job_id] = Ok {| jobs := [] |}
      /\ e = IndexError) ->
  poll batch job_id (n + S fuel) 0
  = ((concat (repeat (round job_id) n) ++ [DescribeJobs [job_id]])%list,
     Finished (Raise e)).
Proof.
  intros pending other failure.
  rewrite (poll_skip batch job_id n (S fuel) 0 pending).
  cbn [Nat.add poll].
  destruct failure as [failure|[failure ->]]; rewrite failure.
  - destruct e; try reflexivity. now elim (other msg).
  - reflexivity.
Qed.

Lemma poll_other_errors_unlogged_witness :
  poll (Scenario.running_then 1 (Ok {| jobs := [] |})) "job-1" (1 + 1) 0
  = ((concat (repeat (round "job-1") 1) ++ [DescribeJobs ["job-1"]])%list,
     Finished (Raise IndexError)).
Proof.
  refine (poll_other_errors_unlogged
            (Scenario.running_then 1 (Ok {| jobs := [] |}))
            "job-1" 1 0 IndexError _ _ _).
  - intros i Hi. destruct i as [|i]; [reflexivity | lia].
  - intros msg. discriminate.
  - right. split; reflexivity.
Defined.

(** ** The stack validator *)

(** X17: the validation function accepts a stack, with an empty message,
    exactly when the artifact store is remote and the stack has a container
    registry that is remote. *)
Theorem validate_remote_components_accepts_iff (stack : Stack) (msg : string) :
  _validate_remote_components stack = Returned (true, msg)
  <-> msg = ""
      /\ is_local (config (artifact_store stack)) = false
      /\ exists registry,
           container_registry stack = Some registry
           /\ is_local (config registry) = false.
Proof.
  unfold _validate_remote_components.
  destruct (is_local (config (artifact_store stack))).
  - split; [discriminate | intros [_ [H _]]; discriminate H].
  - destruct (container_registry stack) as [registry|].
    + destruct (is_local (config registry)) eqn:L.
      * split; [discriminate|].
        intros [_ [_ [r [[= <-] H]]]]. congruence.
      * split.
        -- intros [= <-]. repeat split. now exists registry.
        -- intros [-> _]. reflexivity.
    + split; [discriminate | intros [_ [_ [r [H _]]]]; discriminate H].
Qed.

(** X18: a rejection names its cause: the message quotes the name of the
    artifact store when that is local, and otherwise the name of the
    container registry, which then is local.  The artifact store is looked
    at first. *)
Theorem validate_remote_components_rejection (stack : Stack) (msg : string) :
  _validate_remote_components stack = Returned (false, msg) ->
  (is_local (config (artifact_store stack)) = true
   /\ quotes msg (name (artifact_store stack)))
  \/ (is_local (config (artifact_store stack)) = false
      /\ exists registry,
           container_registry stack = Some registry
           /\ is_local (config registry) = true
           /\ quotes msg (name registry)).
Proof.
  unfold _validate_remote_components, quotes.
  destruct (is_local (config (artifact_store stack))).
  - intros [= <-]. left. split; [reflexivity|].
    exists ("The Batch step operator runs code remotely and "
            ++ "needs to write files into the artifact store, but the "
            ++ "artifact store "),
           (" of the "
            ++ "active stack is local. Please ensure that your stack "
            ++ "contains a remote artifact store when using the Batch "
            ++ "step operator.").
    reflexivity.
  - destruct (container_registry stack) as [registry|]; [|discriminate].
    destruct (is_local (config registry)) eqn:L; [|discriminate].
    intros [= <-]. right. split; [reflexivity|].
    exists registry. repeat split; try assumption.
    exists ("The Batch step operator runs code remotely and "
            ++ "needs to push/pull Docker images, but the "
            ++ "container registry "),
           (" of the "
            ++ "active stack is local. Please ensure that your stack "
            ++ "contains a remote container registry when using the "
            ++ "Batch step operator.").
    reflexivity.
Qed.

Lemma validate_remote_components_rejection_witness :
  exists msg,
    _validate_remote_components
      {| artifact_store := Scenario.remote_store;
         container_registry := Some Scenario.local_registry |}
    = Returned (false, msg)
    /\ quotes msg "localhost-registry".
Proof.
  eexists. split; [reflexivity|].
  destruct (validate_remote_components_rejection
              {| artifact_store := Scenario.remote_store;
                 container_registry := Some Scenario.local_registry |}
              _ eq_refl) as [[L _]|[_ [registry [R [_ Q]]]]].
  - discriminate L.
  - injection R as <-. exact Q.
Defined.

(** X19: the validation function stops at its assertion exactly when the
    artifact store is remote and the stack has no container registry; a
    local artifact store is reported even then. *)
Theorem validate_remote_components_assertion (stack : Stack) :
  _validate_remote_components stack = AssertionError
  <-> is_local (config (artifact_store stack)) = false
      /\ container_registry stack = None.
Proof.
  unfold _validate_remote_components.
  destruct (is_local (config (artifact_store stack))).
  - split; [discriminate | intros [H _]; discriminate H].
  - destruct (container_registry stack) as [registry|].
    + destruct (is_local (config registry));
        (split; [discriminate | intros [_ H]; discriminate H]).
    + split; [now split | reflexivity].
Qed.

(** ** The Docker builds *)

Lemma get_docker_builds_from {D} (self_name : string)
  (steps : list (string * Step D)) (acc : list (BuildConfiguration D)) :
  fold_left
    (fun builds '(step_name, step) =>
       if uses_step_operator step self_name then
         let build :=
           {| key := BATCH_DOCKER_IMAGE_KEY;
              settings := docker_settings step;
              step_name := step_name;
              entrypoint := "$" ++ _ENTRYPOINT_ENV_VARIABLE |} in
         (builds ++ [build])%list
       else builds)
    steps acc
  = (acc
     ++ map (fun p =>
               {| key := BATCH_DOCKER_IMAGE_KEY;
                  settings := docker_settings (snd p);
                  step_name := fst p;
                  entrypoint := "$__ZENML_ENTRYPOINT" |})
          (filter (fun p => uses_step_operator (snd p) self_name) steps))%list.
Proof.
  revert acc.
  induction steps as [|[n st] steps IH]; intros acc; simpl.
  - now rewrite app_nil_r.
  - rewrite IH. destruct (uses_step_operator st self_name); simpl.
    + now rewrite <- app_assoc.
    + reflexivity.
Qed.

(** X20: the builds are one per step that uses the operator, in the order
    of the steps: their step names are the names of those steps, so a step
    that does not use the operator gets no build and no build is made
    twice for a step. *)
Theorem get_docker_builds_step_names {D} (self_name : string)
  (steps : list (string * Step D)) :
  map step_name (get_docker_builds self_name steps)
  = map fst (filter (fun p => uses_step_operator (snd p) self_name) steps).
Proof.
  unfold get_docker_builds. rewrite get_docker_builds_from.
  cbn [app]. rewrite map_map. reflexivity.
Qed.

(** X21: every build carries the image key of the operator, the entrypoint
    [$__ZENML_ENTRYPOINT], and the Docker settings of a step of its name
    that uses the operator. *)
Theorem get_docker_builds_fields {D} (self_name : string)
  (steps : list (string * Step D)) (build : BuildConfiguration D) :
  In build (get_docker_builds self_name steps) ->
  key build = "aws_batch_step_operator"
  /\ entrypoint build = "$__ZENML_ENTRYPOINT"
  /\ exists step,
       In (step_name build, step) steps
       /\ uses_step_operator step self_name = true
       /\ settings build = docker_settings step.
Proof.
  unfold get_docker_builds. rewrite get_docker_builds_from. cbn [app].
  rewrite in_map_iff. intros [[n st] [<- H]].
  apply filter_In in H. destruct H as [Hin Huses].
  repeat split. exists st. repeat split; assumption.
Qed.

Lemma get_docker_builds_fields_witness :
  key {| key := "aws_batch_step_operator"; settings := 3%nat;
         step_name := "train"; entrypoint := "$__ZENML_ENTRYPOINT" |}
  = "aws_batch_step_operator"
  /\ exists step,
       In ("train", step) Scenario.steps
       /\ uses_step_operator step "batch" = true
       /\ 3%nat = docker_settings step.
Proof.
  destruct (get_docker_builds_fields "batch" Scenario.steps
              {| key := "aws_batch_step_operator"; settings := 3%nat;
                 step_name := "train"; entrypoint := "$__ZENML_ENTRYPOINT" |})
    as [K [_ S]].
  - simpl. auto.
  - split; [exact K | exact S].
Defined.

(** ** The job definition model *)

(** X22: the job definition model accepts its keyword arguments exactly
    when the type is one of [container] and [multinode] and the container
    properties are not a tuple.  It checks nothing else: not that the
    payload fits the type, not that one payload is there, not the
    timeout. *)
Theorem new_JobDefinition_accepts_iff
  (name : string) (timeout : list (string * Z)) (kw : kwargs) :
  (exists d, new_JobDefinition name timeout kw = Ok d)
  <-> (kw_type kw = "container" \/ kw_type kw = "multinode")
      /\ (forall items, kw_containerProperties kw <> Some (Tuple items)).
Proof.
  unfold new_JobDefinition.
  destruct (String.eqb_spec (kw_type kw) "container") as [Hc|Hc];
    destruct (String.eqb_spec (kw_type kw) "multinode") as [Hm|Hm];
    cbn [orb negb];
    try (destruct (kw_containerProperties kw) as [[c|items]|]; cbn;
         (split;
          [ intros [d H]; try discriminate H; split; auto; intros items';
            discriminate
          | intros [_ H]; try (now elim (H items)); eexists; reflexivity ])).
  split; [intros [d H]; discriminate H | intros [[H|H] _]; contradiction].
Qed.
